(** * Copy-on-write fork smoke tests of xv6: [test4.c] and [testcow.c]

    The repository holds two user programs.  Each one measures the number of
    free physical pages, allocates 4096 bytes, measures again, forks, and in
    the parent and in the child measures, writes one byte to the buffer,
    measures again and prints a verdict.

    A program talks to the kernel through system calls and writes to its own
    memory.  Both programs are straight-line code with conditionals, so a
    program is a finite tree of operations ([prog]); [run] executes one
    process against an [oracle] that fixes what the kernel answers, and
    records every operation in a trace. *)

From Stdlib Require Import ZArith List String Ascii Bool Lia.
From Stdlib Require Import Strings.Byte.
Import ListNotations.
Local Open Scope string_scope.
Local Open Scope Z_scope.

(** ** Operations *)

(** C [int] values (free-page counts, pids, file descriptors) and the pointer
    returned by [malloc] are integers; the programs only compare them, so no
    arithmetic wraps. *)
Definition int := Z.
Definition ptr := Z.

(** The operations the two programs perform, indexed by the type of the
    answer.  [exit] does not come back: its answer type is empty.  The
    results of [sleep] and [wait] are discarded by both programs. *)
Inductive callE : Type -> Type :=
| GetNumFreePages : callE int
| Malloc (nbytes : Z) : callE ptr
| Fork : callE int
| Sleep (ticks : int) : callE unit
| Wait : callE unit
| Exit : callE Empty_set
| Printf (fd : int) (fmt : string) (args : list int) : callE unit
| Store (p : ptr) (i : Z) (c : byte) : callE unit.

(** A program returning [R]. *)
Inductive prog (R : Type) : Type :=
| Ret (r : R)
| Vis (X : Type) (e : callE X) (k : X -> prog R).
Arguments Ret {R} r.
Arguments Vis {R X} e k.

Fixpoint bind {A B : Type} (m : prog A) (f : A -> prog B) : prog B :=
  match m with
  | Ret a => f a
  | Vis e k => Vis e (fun x => bind (k x) f)
  end.

Definition call {X : Type} (e : callE X) : prog X := Vis e (fun x => Ret x).

Declare Scope prog_scope.
Delimit Scope prog_scope with prog.
Notation "x <- m ;; k" := (bind m (fun x => k))
  (at level 61, m at next level, right associativity) : prog_scope.
Notation "m ;; k" := (bind m (fun _ => k))
  (at level 61, right associativity) : prog_scope.
Local Open Scope prog_scope.

(** The C-level names. *)
Definition getNumFreePages : prog int := call GetNumFreePages.
Definition malloc (nbytes : Z) : prog ptr := call (Malloc nbytes).
Definition fork : prog int := call Fork.
Definition sleep (ticks : int) : prog unit := call (Sleep ticks).
Definition wait : prog unit := call Wait.
Definition printf (fd : int) (fmt : string) (args : list int) : prog unit :=
  call (Printf fd fmt args).
Definition store (p : ptr) (i : Z) (c : byte) : prog unit :=
  call (Store p i c).
(** [exit()] has whatever type the context wants: control never reaches what
    follows it. *)
Definition exit {R : Type} : prog R :=
  Vis Exit (fun v : Empty_set => match v with end).

(** A C [if] without [else]. *)
Definition when (b : bool) (body : prog unit) : prog unit :=
  if b then body else Ret tt.

(** The line feed that ends every message. *)
Definition LF : string := String (ascii_of_nat 10) EmptyString.

(** ** The two programs *)

(** [test4.c], [main]. *)
Definition test4_main : prog int :=
  initial_free_pages <- getNumFreePages ;;
  printf 1 ("Initial free pages: %d" ++ LF) [initial_free_pages] ;;
  parent_memory <- malloc 4096 ;;
  when (parent_memory =? 0)
    (printf 1 ("Memory allocation failed" ++ LF) [] ;;
     exit) ;;
  free_pages_after_alloc <- getNumFreePages ;;
  printf 1 ("Free pages after allocation: %d" ++ LF) [free_pages_after_alloc] ;;
  pid <- fork ;;
  when (pid <? 0)
    (printf 1 ("Fork failed" ++ LF) [] ;;
     exit) ;;
  (if pid =? 0 then
     free_pages_after_fork <- getNumFreePages ;;
     sleep 10 ;;
     printf 1 ("Free pages after fork (child): %d" ++ LF) [free_pages_after_fork] ;;
     store parent_memory 0 "C"%byte ;;
     printf 1 ("Child process modified memory." ++ LF) [] ;;
     free_pages_after_modification <- getNumFreePages ;;
     printf 1 ("Free pages after modification (child): %d" ++ LF)
            [free_pages_after_modification] ;;
     (if free_pages_after_modification =? free_pages_after_fork then
        printf 1 ("COW mechanism working! No new page was allocated to write (child)." ++ LF) []
      else
        printf 1 ("Something went wrong (child)." ++ LF) []) ;;
     exit
   else
     free_pages_after_fork <- getNumFreePages ;;
     printf 1 ("Free pages after fork (parent): %d" ++ LF) [free_pages_after_fork] ;;
     store parent_memory 0 "P"%byte ;;
     printf 1 ("Parent process modified memory." ++ LF) [] ;;
     free_pages_after_modification <- getNumFreePages ;;
     printf 1 ("Free pages after modification (parent): %d" ++ LF)
            [free_pages_after_modification] ;;
     (if free_pages_after_modification <? free_pages_after_fork then
        printf 1 ("COW mechanism working! A new page was allocated after write (parent)." ++ LF) []
      else
        printf 1 ("Something went wrong, no new page allocated after write (parent)." ++ LF) []) ;;
     wait) ;;
  exit.

(** [testcow.c], [main]. *)
Definition testcow_main : prog int :=
  initial_free_pages <- getNumFreePages ;;
  printf 1 ("Initial free pages: %d" ++ LF) [initial_free_pages] ;;
  parent_memory <- malloc 4096 ;;
  when (parent_memory =? 0)
    (printf 1 ("Memory allocation failed" ++ LF) [] ;;
     exit) ;;
  free_pages_after_alloc <- getNumFreePages ;;
  printf 1 ("Free pages after allocation: %d" ++ LF) [free_pages_after_alloc] ;;
  pid <- fork ;;
  when (pid <? 0)
    (printf 1 ("Fork failed" ++ LF) [] ;;
     exit) ;;
  free_pages_after_fork <- getNumFreePages ;;
  printf 1 ("Free pages after fork: %d" ++ LF) [free_pages_after_fork] ;;
  (if pid =? 0 then
     store parent_memory 0 "C"%byte ;;
     printf 1 ("Child process modified memory." ++ LF) [] ;;
     free_pages_after_modification <- getNumFreePages ;;
     printf 1 ("Free pages after modification: %d" ++ LF)
            [free_pages_after_modification] ;;
     (if free_pages_after_modification <? free_pages_after_fork then
        printf 1 ("COW mechanism working! A new page was allocated after write." ++ LF) []
      else
        printf 1 ("Something went wrong, no new page allocated after write." ++ LF) []) ;;
     exit
   else
     store parent_memory 0 "P"%byte ;;
     printf 1 ("Parent process modified memory." ++ LF) [] ;;
     free_pages_after_modification <- getNumFreePages ;;
     printf 1 ("Free pages after modification: %d" ++ LF)
            [free_pages_after_modification] ;;
     (if free_pages_after_modification <? free_pages_after_fork then
        printf 1 ("COW mechanism working! A new page was allocated after write." ++ LF) []
      else
        printf 1 ("Something went wrong, no new page allocated after write." ++ LF) []) ;;
     wait) ;;
  exit.

(** ** Running one process *)

(** What the kernel answers to one process: the [k]-th call of
    [getNumFreePages], of [malloc] and of [fork] (counted from 0) returns
    [free_pages k], [malloc_ret k] and [fork_ret k].  Any sequence of
    results is such an oracle. *)
Record oracle : Type := {
  free_pages : nat -> int;
  malloc_ret : nat -> ptr;
  fork_ret : nat -> int
}.

(** An operation as it happened, with its answer. *)
Inductive event : Type :=
| EvGetNumFreePages (r : int)
| EvMalloc (nbytes : Z) (r : ptr)
| EvFork (r : int)
| EvSleep (ticks : int)
| EvWait
| EvExit
| EvPrintf (fd : int) (fmt : string) (args : list int)
| EvStore (p : ptr) (i : Z) (c : byte).

(** The memory of the process, one byte per address. *)
Definition memory := Z -> byte.

Definition write (m : memory) (a : Z) (c : byte) : memory :=
  fun a' => if a' =? a then c else m a'.

Record state : Type := {
  measured : nat;       (* calls of getNumFreePages so far *)
  allocated : nat;      (* calls of malloc so far *)
  forked : nat;         (* calls of fork so far *)
  mem : memory;
  trace : list event    (* oldest first *)
}.

Definition init (m : memory) : state :=
  {| measured := 0; allocated := 0; forked := 0; mem := m; trace := [] |}.

Definition log (ev : event) (s : state) : state :=
  {| measured := measured s; allocated := allocated s; forked := forked s;
     mem := mem s; trace := trace s ++ [ev] |}.

(** One operation: its answer ([None] when control does not come back) and
    the state after it.  [p[i] = c] writes the byte at address [p + i]. *)
Definition handle (o : oracle) {X : Type} (e : callE X) (s : state)
  : option X * state :=
  match e in callE T return option T * state with
  | GetNumFreePages =>
      let r := free_pages o (measured s) in
      (Some r,
       log (EvGetNumFreePages r)
         {| measured := S (measured s); allocated := allocated s;
            forked := forked s; mem := mem s; trace := trace s |})
  | Malloc n =>
      let r := malloc_ret o (allocated s) in
      (Some r,
       log (EvMalloc n r)
         {| measured := measured s; allocated := S (allocated s);
            forked := forked s; mem := mem s; trace := trace s |})
  | Fork =>
      let r := fork_ret o (forked s) in
      (Some r,
       log (EvFork r)
         {| measured := measured s; allocated := allocated s;
            forked := S (forked s); mem := mem s; trace := trace s |})
  | Sleep t => (Some tt, log (EvSleep t) s)
  | Wait => (Some tt, log EvWait s)
  | Exit => (None, log EvExit s)
  | Printf fd fmt args => (Some tt, log (EvPrintf fd fmt args) s)
  | Store p i c =>
      (Some tt,
       log (EvStore p i c)
         {| measured := measured s; allocated := allocated s;
            forked := forked s; mem := write (mem s) (p + i) c;
            trace := trace s |})
  end.

(** How a process ends: [main] returns a value, or the process called
    [exit()], which takes no status. *)
Inductive outcome (R : Type) : Type :=
| Returned (r : R)
| Exited.
Arguments Returned {R} r.
Arguments Exited {R}.

Fixpoint run {R : Type} (o : oracle) (p : prog R) (s : state)
  : outcome R * state :=
  match p with
  | Ret r => (Returned r, s)
  | Vis e k =>
      match handle o e s with
      | (Some x, s') => run o (k x) s'
      | (None, s') => (Exited, s')
      end
  end.

(** The run of a program from a fresh process with memory [m]. *)
Definition exec {R : Type} (p : prog R) (o : oracle) (m : memory)
  : outcome R * state :=
  run o p (init m).

(** The trace of a run; it is the same from any memory ([trace_any_mem]
    below), so it is taken from the all-zero one. *)
Definition zeros : memory := fun _ => x00.

Definition trace_of {R : Type} (p : prog R) (o : oracle) : list event :=
  trace (snd (exec p o zeros)).

(** An oracle given by the lists of answers; 0 past the end. *)
Definition answers (nfp : list int) (m : ptr) (f : int) : oracle :=
  {| free_pages := fun k => nth k nfp 0;
     malloc_ret := fun _ => m;
     fork_ret := fun _ => f |}.


(** ** Reading a trace *)

(** The two verdicts a branch can print.  Every verdict message of either
    program starts with one of two phrases, whatever follows it. *)
Inductive verdict : Type := CowWorking | WentWrong.

Definition verdict_of_msg (fmt : string) : option verdict :=
  if prefix "COW mechanism working!" fmt then Some CowWorking
  else if prefix "Something went wrong" fmt then Some WentWrong
  else None.

(** The messages of the two handled failures. *)
Definition is_failure_msg (fmt : string) : bool :=
  (fmt =? "Memory allocation failed" ++ LF)%string
  || (fmt =? "Fork failed" ++ LF)%string.

Definition verdict_of_event (ev : event) : option verdict :=
  match ev with
  | EvPrintf _ fmt _ => verdict_of_msg fmt
  | _ => None
  end.

Fixpoint verdicts (tr : list event) : list verdict :=
  match tr with
  | [] => []
  | ev :: tr' =>
      match verdict_of_event ev with
      | Some v => v :: verdicts tr'
      | None => verdicts tr'
      end
  end.

(** The bytes written, in order: pointer, index and value. *)
Fixpoint stores (tr : list event) : list (ptr * Z * byte) :=
  match tr with
  | [] => []
  | EvStore p i c :: tr' => (p, i, c) :: stores tr'
  | _ :: tr' => stores tr'
  end.

Definition is_wait (ev : event) : bool :=
  match ev with EvWait => true | _ => false end.

Definition is_exit (ev : event) : bool :=
  match ev with EvExit => true | _ => false end.

Definition is_failure_print (ev : event) : bool :=
  match ev with
  | EvPrintf _ fmt _ => is_failure_msg fmt
  | _ => false
  end.

Definition count (f : event -> bool) (tr : list event) : nat :=
  List.length (filter f tr).

(** What a process does apart from printing and sleeping: its measurements,
    allocation, fork, writes, wait and exit, with their results.  It shows
    which branches the process took. *)
Definition is_output_or_delay (ev : event) : bool :=
  match ev with
  | EvPrintf _ _ _ | EvSleep _ => true
  | _ => false
  end.

Definition operations (tr : list event) : list event :=
  filter (fun ev => negb (is_output_or_delay ev)) tr.

(** The behaviour of a run as an observer sees it: the branches taken and
    the verdicts printed. *)
Definition observable (tr : list event) : list event * list verdict :=
  (operations tr, verdicts tr).

(** The steps of the test procedure, each with what it measured, got,
    wrote or concluded.  Informational prints, [sleep], [wait] and [exit]
    are not steps of it. *)
Inductive step : Type :=
| Measure (count : int)
| Allocate (nbytes : Z) (buffer : ptr)
| DoFork (pid : int)
| WriteByte (buffer : ptr) (index : Z) (c : byte)
| PrintVerdict (v : verdict).

Definition step_of_event (ev : event) : option step :=
  match ev with
  | EvGetNumFreePages r => Some (Measure r)
  | EvMalloc n r => Some (Allocate n r)
  | EvFork r => Some (DoFork r)
  | EvStore p i c => Some (WriteByte p i c)
  | EvPrintf _ fmt _ =>
      match verdict_of_msg fmt with
      | Some v => Some (PrintVerdict v)
      | None => None
      end
  | EvSleep _ | EvWait | EvExit => None
  end.

Fixpoint steps (tr : list event) : list step :=
  match tr with
  | [] => []
  | ev :: tr' =>
      match step_of_event ev with
      | Some st => st :: steps tr'
      | None => steps tr'
      end
  end.

(** ** Properties of runs *)

(** Two states that agree on everything but the memory. *)
Definition same_but_mem (s1 s2 : state) : Prop :=
  measured s1 = measured s2 /\ allocated s1 = allocated s2
  /\ forked s1 = forked s2 /\ trace s1 = trace s2.

(** A run that fails cleanly: it ends in [exit()], it prints one failure
    message, which is the last thing before [exit()], and the process has
    neither written to memory nor waited. *)
Definition fails_cleanly (main : prog int) (o : oracle) (m : memory) : Prop :=
  fst (exec main o m) = Exited
  /\ count is_failure_print (trace_of main o) = 1%nat
  /\ (exists (before : list event) (msg : string),
        trace_of main o = (before ++ [EvPrintf 1 msg []; EvExit])%list
        /\ is_failure_msg msg = true
        /\ count is_failure_print before = 0%nat)
  /\ stores (trace_of main o) = []
  /\ count is_wait (trace_of main o) = 0%nat
  /\ (forall a, mem (snd (exec main o m)) a = m a).

(** How far the run got when it failed: the numbers of measurements,
    allocations and forks made. *)
Definition calls_made (main : prog int) (o : oracle) (m : memory)
  : nat * nat * nat :=
  let s := snd (exec main o m) in (measured s, allocated s, forked s).

(** The operations that involve the other process. *)
Definition involves_other_process (ev : event) : bool :=
  match ev with
  | EvFork _ | EvWait | EvExit => true
  | _ => false
  end.

Definition process_operations (tr : list event) : list event :=
  filter involves_other_process tr.

(** The parent's ending: the verdict, then the one [wait()] of the run, then
    [exit()]. *)
Definition waits_once_after_verdict (tr : list event) : Prop :=
  count is_wait tr = 1%nat
  /\ exists (before : list event) (msg : string) (v : verdict),
       tr = (before ++ [EvPrintf 1 msg []; EvWait; EvExit])%list
       /\ verdict_of_msg msg = Some v.

(** A run that ends by [exit()]: the process exits instead of returning
    from [main], and [exit()] is the last operation and is called once. *)
Definition ends_by_exit (main : prog int) (o : oracle) (m : memory) : Prop :=
  fst (exec main o m) = Exited
  /\ last (trace_of main o) EvWait = EvExit
  /\ count is_exit (trace_of main o) = 1%nat.

(** The verdict messages printed, as printed. *)
Definition is_verdict_print (ev : event) : bool :=
  match verdict_of_event ev with Some _ => true | None => false end.

Definition verdict_prints (tr : list event) : list event :=
  filter is_verdict_print tr.

(** Two kernels that answer alike except, possibly, to the first two calls
    of [getNumFreePages]. *)
Definition differ_only_before_fork (o1 o2 : oracle) : Prop :=
  (forall k, (2 <= k)%nat -> free_pages o1 k = free_pages o2 k)
  /\ (forall k, malloc_ret o1 k = malloc_ret o2 k)
  /\ (forall k, fork_ret o1 k = fork_ret o2 k).

(** ** Further readings of a run *)

(** The path of a process, decided by the tests of [main] in the order the
    code makes them: [parent_memory == 0], [pid < 0], [pid == 0]. *)
Inductive path : Type := AllocFailure | ForkFailure | Child | Parent.

Definition path_of (o : oracle) : path :=
  if malloc_ret o 0 =? 0 then AllocFailure
  else if fork_ret o 0 <? 0 then ForkFailure
  else if fork_ret o 0 =? 0 then Child
  else Parent.

Definition failure_prints (tr : list event) : list event :=
  filter is_failure_print tr.

Definition is_print (ev : event) : bool :=
  match ev with EvPrintf _ _ _ => true | _ => false end.

(** Everything the process printed, in order. *)
Definition prints (tr : list event) : list event := filter is_print tr.

Definition is_sleep (ev : event) : bool :=
  match ev with EvSleep _ => true | _ => false end.

Definition sleeps (tr : list event) : list event := filter is_sleep tr.

Definition is_malloc (ev : event) : bool :=
  match ev with EvMalloc _ _ => true | _ => false end.

Definition allocations (tr : list event) : list event := filter is_malloc tr.

(** The values [getNumFreePages] returned, and the values handed to
    [printf], both in order. *)
Fixpoint measured_values (tr : list event) : list int :=
  match tr with
  | [] => []
  | EvGetNumFreePages r :: tr' => r :: measured_values tr'
  | _ :: tr' => measured_values tr'
  end.

Fixpoint printed_values (tr : list event) : list int :=
  match tr with
  | [] => []
  | EvPrintf _ _ args :: tr' => (args ++ printed_values tr')%list
  | _ :: tr' => printed_values tr'
  end.

(** The number of percent signs of a format, and the number of them that
    start a [%d] conversion. *)
Fixpoint percents (fmt : string) : nat :=
  match fmt with
  | EmptyString => 0%nat
  | String c rest =>
      if Ascii.eqb c "%" then S (percents rest) else percents rest
  end.

Fixpoint percent_ds (fmt : string) : nat :=
  match fmt with
  | EmptyString => 0%nat
  | String c rest =>
      match rest with
      | String d _ =>
          if Ascii.eqb c "%" && Ascii.eqb d "d"
          then S (percent_ds rest) else percent_ds rest
      | EmptyString => 0%nat
      end
  end.

(** A call of [printf] that writes to descriptor 1 and passes one integer
    for each conversion of its format, all of them [%d]. *)
Definition well_formed_print (ev : event) : bool :=
  match ev with
  | EvPrintf fd fmt args =>
      (fd =? 1)
      && Nat.eqb (percents fmt) (List.length args)
      && Nat.eqb (percent_ds fmt) (List.length args)
  | _ => true
  end.

(** Two kernels that give the same first four measurements, the same first
    allocation and the same first fork. *)
Definition same_first_answers (o1 o2 : oracle) : Prop :=
  (forall k, (k < 4)%nat -> free_pages o1 k = free_pages o2 k)
  /\ malloc_ret o1 0 = malloc_ret o2 0
  /\ fork_ret o1 0 = fork_ret o2 0.

(** ** Concrete kernels, used to exercise the theorems *)

(** Child, and the write takes no page: 100, 99, 99, 99. *)
Definition child_no_new_page : oracle := answers [100; 99; 99; 99] 8192 0.
(** Child, and the write takes one page: 100, 99, 99, 98. *)
Definition child_new_page : oracle := answers [100; 99; 99; 98] 8192 0.
(** Parent of child 4, and the write takes one page. *)
Definition parent_new_page : oracle := answers [100; 99; 99; 98] 8192 4.
(** [malloc] fails. *)
Definition no_memory : oracle := answers [100] 0 0.
(** [fork] fails. *)
Definition no_process : oracle := answers [100; 99] 8192 (-1).

(** The kernel of [child_new_page] with other values for the first two
    measurements. *)
Definition child_new_page_other_start : oracle :=
  answers [50; 40; 99; 98] 8192 0.

(** A parent with another buffer and another child than
    [parent_new_page]. *)
Definition parent_other_child : oracle := answers [100; 99; 99; 98] 12288 7.

(** [child_new_page] with other answers past the ones the programs use. *)
Definition child_new_page_longer : oracle :=
  {| free_pages := fun k => nth k [100; 99; 99; 98; 97; 96] 5;
     malloc_ret := fun k => match k with O => 8192 | _ => 0 end;
     fork_ret := fun k => match k with O => 0 | _ => -1 end |}.

(** ** Runs on concrete kernels *)

(** How the messages of the two programs are read. *)
Example verdict_messages :
  map verdict_of_msg
    ["COW mechanism working! No new page was allocated to write (child)." ++ LF;
     "Something went wrong (child)." ++ LF;
     "COW mechanism working! A new page was allocated after write (parent)." ++ LF;
     "Something went wrong, no new page allocated after write (parent)." ++ LF;
     "COW mechanism working! A new page was allocated after write." ++ LF;
     "Something went wrong, no new page allocated after write." ++ LF]
  = [Some CowWorking; Some WentWrong; Some CowWorking; Some WentWrong;
     Some CowWorking; Some WentWrong].
Proof. reflexivity. Qed.

Example other_messages :
  map verdict_of_msg
    ["Initial free pages: %d" ++ LF;
     "Memory allocation failed" ++ LF;
     "Free pages after allocation: %d" ++ LF;
     "Fork failed" ++ LF;
     "Free pages after fork (child): %d" ++ LF;
     "Free pages after fork (parent): %d" ++ LF;
     "Free pages after fork: %d" ++ LF;
     "Child process modified memory." ++ LF;
     "Parent process modified memory." ++ LF;
     "Free pages after modification (child): %d" ++ LF;
     "Free pages after modification (parent): %d" ++ LF;
     "Free pages after modification: %d" ++ LF]
  = repeat None 12.
Proof. reflexivity. Qed.

Example test4_child_run :
  trace_of test4_main child_no_new_page =
    [EvGetNumFreePages 100;
     EvPrintf 1 ("Initial free pages: %d" ++ LF) [100];
     EvMalloc 4096 8192;
     EvGetNumFreePages 99;
     EvPrintf 1 ("Free pages after allocation: %d" ++ LF) [99];
     EvFork 0;
     EvGetNumFreePages 99;
     EvSleep 10;
     EvPrintf 1 ("Free pages after fork (child): %d" ++ LF) [99];
     EvStore 8192 0 "C"%byte;
     EvPrintf 1 ("Child process modified memory." ++ LF) [];
     EvGetNumFreePages 99;
     EvPrintf 1 ("Free pages after modification (child): %d" ++ LF) [99];
     EvPrintf 1
       ("COW mechanism working! No new page was allocated to write (child)."
        ++ LF) [];
     EvExit].
Proof. reflexivity. Qed.

Example testcow_child_run :
  trace_of testcow_main child_no_new_page =
    [EvGetNumFreePages 100;
     EvPrintf 1 ("Initial free pages: %d" ++ LF) [100];
     EvMalloc 4096 8192;
     EvGetNumFreePages 99;
     EvPrintf 1 ("Free pages after allocation: %d" ++ LF) [99];
     EvFork 0;
     EvGetNumFreePages 99;
     EvPrintf 1 ("Free pages after fork: %d" ++ LF) [99];
     EvStore 8192 0 "C"%byte;
     EvPrintf 1 ("Child process modified memory." ++ LF) [];
     EvGetNumFreePages 99;
     EvPrintf 1 ("Free pages after modification: %d" ++ LF) [99];
     EvPrintf 1
       ("Something went wrong, no new page allocated after write." ++ LF) [];
     EvExit].
Proof. reflexivity. Qed.

Example test4_parent_verdict :
  verdicts (trace_of test4_main parent_new_page) = [CowWorking].
Proof. reflexivity. Qed.

Example testcow_no_memory_run :
  exec testcow_main no_memory zeros =
    (Exited,
     {| measured := 1; allocated := 1; forked := 0; mem := zeros;
        trace :=
          [EvGetNumFreePages 100;
           EvPrintf 1 ("Initial free pages: %d" ++ LF) [100];
           EvMalloc 4096 0;
           EvPrintf 1 ("Memory allocation failed" ++ LF) [];
           EvExit] |}).
Proof. reflexivity. Qed.

Example child_memory_after_write :
  mem (snd (exec test4_main child_new_page zeros)) 8192 = "C"%byte
  /\ mem (snd (exec test4_main child_new_page zeros)) 8193 = x00.
Proof. split; reflexivity. Qed.

(** ** The four paths of each program

    Which path a process takes is decided by the first answer of [malloc]
    and the first answer of [fork]; on each path the run is known in full. *)

(** Settles the integer tests in the goal, dropping the impossible cases. *)
Ltac decide_tests :=
  repeat match goal with
    | |- context [Z.eqb ?a ?b] => destruct (Z.eqb_spec a b); try lia
    | |- context [Z.ltb ?a ?b] => destruct (Z.ltb_spec a b); try lia
    end.

(** Runs the program, deciding each test of the code from the hypotheses. *)
Ltac run_path :=
  unfold exec; cbn; repeat (progress decide_tests; cbn); reflexivity.

Section Paths.
Variable o : oracle.
Variable m : memory.

Local Abbreviation f0 := (free_pages o 0%nat).
Local Abbreviation f1 := (free_pages o 1%nat).
Local Abbreviation f2 := (free_pages o 2%nat).
Local Abbreviation f3 := (free_pages o 3%nat).
Local Abbreviation p := (malloc_ret o 0%nat).
Local Abbreviation pid := (fork_ret o 0%nat).

(** *** [test4.c] *)

Lemma test4_alloc_failure :
  p = 0 ->
  exec test4_main o m =
    (Exited,
     {| measured := 1; allocated := 1; forked := 0; mem := m;
        trace :=
          [EvGetNumFreePages f0;
           EvPrintf 1 ("Initial free pages: %d" ++ LF) [f0];
           EvMalloc 4096 p;
           EvPrintf 1 ("Memory allocation failed" ++ LF) [];
           EvExit] |}).
Proof. intros Hp. run_path. Qed.

Lemma test4_fork_failure :
  p <> 0 -> pid < 0 ->
  exec test4_main o m =
    (Exited,
     {| measured := 2; allocated := 1; forked := 1; mem := m;
        trace :=
          [EvGetNumFreePages f0;
           EvPrintf 1 ("Initial free pages: %d" ++ LF) [f0];
           EvMalloc 4096 p;
           EvGetNumFreePages f1;
           EvPrintf 1 ("Free pages after allocation: %d" ++ LF) [f1];
           EvFork pid;
           EvPrintf 1 ("Fork failed" ++ LF) [];
           EvExit] |}).
Proof. intros Hp Hpid. run_path. Qed.

Lemma test4_child :
  p <> 0 -> pid = 0 ->
  exec test4_main o m =
    (Exited,
     {| measured := 4; allocated := 1; forked := 1;
        mem := write m (p + 0) "C"%byte;
        trace :=
          [EvGetNumFreePages f0;
           EvPrintf 1 ("Initial free pages: %d" ++ LF) [f0];
           EvMalloc 4096 p;
           EvGetNumFreePages f1;
           EvPrintf 1 ("Free pages after allocation: %d" ++ LF) [f1];
           EvFork pid;
           EvGetNumFreePages f2;
           EvSleep 10;
           EvPrintf 1 ("Free pages after fork (child): %d" ++ LF) [f2];
           EvStore p 0 "C"%byte;
           EvPrintf 1 ("Child process modified memory." ++ LF) [];
           EvGetNumFreePages f3;
           EvPrintf 1 ("Free pages after modification (child): %d" ++ LF) [f3];
           EvPrintf 1
             (if f3 =? f2
              then "COW mechanism working! No new page was allocated to write (child)." ++ LF
              else "Something went wrong (child)." ++ LF) [];
           EvExit] |}).
Proof. intros Hp Hpid. run_path. Qed.

Lemma test4_parent :
  p <> 0 -> 0 < pid ->
  exec test4_main o m =
    (Exited,
     {| measured := 4; allocated := 1; forked := 1;
        mem := write m (p + 0) "P"%byte;
        trace :=
          [EvGetNumFreePages f0;
           EvPrintf 1 ("Initial free pages: %d" ++ LF) [f0];
           EvMalloc 4096 p;
           EvGetNumFreePages f1;
           EvPrintf 1 ("Free pages after allocation: %d" ++ LF) [f1];
           EvFork pid;
           EvGetNumFreePages f2;
           EvPrintf 1 ("Free pages after fork (parent): %d" ++ LF) [f2];
           EvStore p 0 "P"%byte;
           EvPrintf 1 ("Parent process modified memory." ++ LF) [];
           EvGetNumFreePages f3;
           EvPrintf 1 ("Free pages after modification (parent): %d" ++ LF) [f3];
           EvPrintf 1
             (if f3 <? f2
              then "COW mechanism working! A new page was allocated after write (parent)." ++ LF
              else "Something went wrong, no new page allocated after write (parent)." ++ LF) [];
           EvWait;
           EvExit] |}).
Proof. intros Hp Hpid. run_path. Qed.

(** *** [testcow.c] *)

Lemma testcow_alloc_failure :
  p = 0 ->
  exec testcow_main o m =
    (Exited,
     {| measured := 1; allocated := 1; forked := 0; mem := m;
        trace :=
          [EvGetNumFreePages f0;
           EvPrintf 1 ("Initial free pages: %d" ++ LF) [f0];
           EvMalloc 4096 p;
           EvPrintf 1 ("Memory allocation failed" ++ LF) [];
           EvExit] |}).
Proof. intros Hp. run_path. Qed.

Lemma testcow_fork_failure :
  p <> 0 -> pid < 0 ->
  exec testcow_main o m =
    (Exited,
     {| measured := 2; allocated := 1; forked := 1; mem := m;
        trace :=
          [EvGetNumFreePages f0;
           EvPrintf 1 ("Initial free pages: %d" ++ LF) [f0];
           EvMalloc 4096 p;
           EvGetNumFreePages f1;
           EvPrintf 1 ("Free pages after allocation: %d" ++ LF) [f1];
           EvFork pid;
           EvPrintf 1 ("Fork failed" ++ LF) [];
           EvExit] |}).
Proof. intros Hp Hpid. run_path. Qed.

Lemma testcow_child :
  p <> 0 -> pid = 0 ->
  exec testcow_main o m =
    (Exited,
     {| measured := 4; allocated := 1; forked := 1;
        mem := write m (p + 0) "C"%byte;
        trace :=
          [EvGetNumFreePages f0;
           EvPrintf 1 ("Initial free pages: %d" ++ LF) [f0];
           EvMalloc 4096 p;
           EvGetNumFreePages f1;
           EvPrintf 1 ("Free pages after allocation: %d" ++ LF) [f1];
           EvFork pid;
           EvGetNumFreePages f2;
           EvPrintf 1 ("Free pages after fork: %d" ++ LF) [f2];
           EvStore p 0 "C"%byte;
           EvPrintf 1 ("Child process modified memory." ++ LF) [];
           EvGetNumFreePages f3;
           EvPrintf 1 ("Free pages after modification: %d" ++ LF) [f3];
           EvPrintf 1
             (if f3 <? f2
              then "COW mechanism working! A new page was allocated after write." ++ LF
              else "Something went wrong, no new page allocated after write." ++ LF) [];
           EvExit] |}).
Proof. intros Hp Hpid. run_path. Qed.

Lemma testcow_parent :
  p <> 0 -> 0 < pid ->
  exec testcow_main o m =
    (Exited,
     {| measured := 4; allocated := 1; forked := 1;
        mem := write m (p + 0) "P"%byte;
        trace :=
          [EvGetNumFreePages f0;
           EvPrintf 1 ("Initial free pages: %d" ++ LF) [f0];
           EvMalloc 4096 p;
           EvGetNumFreePages f1;
           EvPrintf 1 ("Free pages after allocation: %d" ++ LF) [f1];
           EvFork pid;
           EvGetNumFreePages f2;
           EvPrintf 1 ("Free pages after fork: %d" ++ LF) [f2];
           EvStore p 0 "P"%byte;
           EvPrintf 1 ("Parent process modified memory." ++ LF) [];
           EvGetNumFreePages f3;
           EvPrintf 1 ("Free pages after modification: %d" ++ LF) [f3];
           EvPrintf 1
             (if f3 <? f2
              then "COW mechanism working! A new page was allocated after write." ++ LF
              else "Something went wrong, no new page allocated after write." ++ LF) [];
           EvWait;
           EvExit] |}).
Proof. intros Hp Hpid. run_path. Qed.

End Paths.

(** Every oracle puts the process on exactly one of the four paths. *)
Lemma four_paths (o : oracle) :
  malloc_ret o 0 = 0
  \/ (malloc_ret o 0 <> 0 /\ fork_ret o 0 < 0)
  \/ (malloc_ret o 0 <> 0 /\ fork_ret o 0 = 0)
  \/ (malloc_ret o 0 <> 0 /\ 0 < fork_ret o 0).
Proof. lia. Qed.

(** ** The trace does not depend on the memory

    No operation reads memory, so two runs from states that differ only in
    their memory end the same way and leave the same trace. *)

Lemma handle_same_but_mem (o : oracle) (X : Type) (e : callE X) (s1 s2 : state) :
  same_but_mem s1 s2 ->
  fst (handle o e s1) = fst (handle o e s2)
  /\ same_but_mem (snd (handle o e s1)) (snd (handle o e s2)).
Proof.
  intros (Hm & Ha & Hf & Ht).
  destruct e; unfold same_but_mem; cbn; rewrite ?Hm, ?Ha, ?Hf, ?Ht; auto.
Qed.

Lemma run_same_but_mem (o : oracle) (R : Type) (p : prog R) :
  forall s1 s2, same_but_mem s1 s2 ->
  fst (run o p s1) = fst (run o p s2)
  /\ same_but_mem (snd (run o p s1)) (snd (run o p s2)).
Proof.
  induction p as [r | X e k IH]; intros s1 s2 Hs; cbn.
  - auto.
  - destruct (handle_same_but_mem o X e s1 s2 Hs) as [Hans Hnext].
    destruct (handle o e s1) as [a1 s1'], (handle o e s2) as [a2 s2'].
    cbn in Hans, Hnext. subst a2.
    destruct a1 as [x|]; [apply IH; assumption | auto].
Qed.

Lemma trace_any_mem (R : Type) (p : prog R) (o : oracle) (m : memory) :
  trace (snd (exec p o m)) = trace_of p o.
Proof.
  unfold trace_of, exec.
  apply (run_same_but_mem o R p (init m) (init zeros)).
  repeat split.
Qed.

(** ** The claims *)

(** Rewrites the run with the lemma of the path the hypotheses select. *)
Ltac on_path L :=
  unfold trace_of; rewrite !L by (assumption || lia);
  cbn [fst snd trace mem measured allocated forked].

(** Case analysis on every integer test in the goal. *)
Ltac split_tests :=
  repeat match goal with
    | |- context [Z.eqb ?a ?b] => destruct (Z.eqb_spec a b)
    | |- context [Z.ltb ?a ?b] => destruct (Z.ltb_spec a b)
    end.

(** C1: the child of [test4.c] prints the COW-success message if and only
    if the count measured after its write equals the count measured after
    fork; the child of [testcow.c] prints it if and only if the count after
    the write is strictly less than the count after fork. *)
Theorem child_success_conditions (o : oracle) :
  malloc_ret o 0 <> 0 -> fork_ret o 0 = 0 ->
  (In CowWorking (verdicts (trace_of test4_main o))
     <-> free_pages o 3 = free_pages o 2)
  /\ (In CowWorking (verdicts (trace_of testcow_main o))
     <-> free_pages o 3 < free_pages o 2).
Proof.
  intros Hp Hpid. split.
  - on_path test4_child. split_tests; cbn; intuition congruence.
  - on_path testcow_child. split_tests; cbn; intuition (congruence || lia).
Qed.

Lemma child_success_conditions_witness :
  malloc_ret child_no_new_page 0 <> 0 /\ fork_ret child_no_new_page 0 = 0
  /\ (In CowWorking (verdicts (trace_of test4_main child_no_new_page))
        <-> free_pages child_no_new_page 3 = free_pages child_no_new_page 2)
  /\ (In CowWorking (verdicts (trace_of testcow_main child_no_new_page))
        <-> free_pages child_no_new_page 3 < free_pages child_no_new_page 2).
Proof.
  split; [ vm_compute; discriminate | ].
  split; [ reflexivity | ].
  apply (child_success_conditions child_no_new_page);
    [ vm_compute; discriminate | reflexivity ].
Defined.

(** C2, as stated, fails: for a child whose write takes no page, [test4.c]
    prints the COW-success verdict and [testcow.c] the something-went-wrong
    verdict. *)
Lemma test4_testcow_not_equivalent :
  observable (trace_of test4_main child_no_new_page)
  <> observable (trace_of testcow_main child_no_new_page).
Proof. vm_compute. discriminate. Qed.

(** C2, amended: for every sequence of results the two programs perform the
    same measurements, allocation, fork, write, wait and exit in the same
    order, so they take the same branches; they print the same verdicts
    except in the child when the count after the write is at most the count
    after fork: there [test4.c] reports success on equality and [testcow.c]
    on strict decrease. *)
Theorem test4_testcow_agreement (o : oracle) :
  operations (trace_of test4_main o) = operations (trace_of testcow_main o)
  /\ (verdicts (trace_of test4_main o) = verdicts (trace_of testcow_main o)
      <-> ~ (malloc_ret o 0 <> 0 /\ fork_ret o 0 = 0
             /\ free_pages o 3 <= free_pages o 2))
  /\ (malloc_ret o 0 <> 0 -> fork_ret o 0 = 0 ->
      verdicts (trace_of test4_main o)
      = [if free_pages o 3 =? free_pages o 2 then CowWorking else WentWrong]
      /\ verdicts (trace_of testcow_main o)
         = [if free_pages o 3 <? free_pages o 2
            then CowWorking else WentWrong]).
Proof.
  assert (Hchild :
    malloc_ret o 0 <> 0 -> fork_ret o 0 = 0 ->
    verdicts (trace_of test4_main o)
    = [if free_pages o 3 =? free_pages o 2 then CowWorking else WentWrong]
    /\ verdicts (trace_of testcow_main o)
       = [if free_pages o 3 <? free_pages o 2
          then CowWorking else WentWrong]).
  { intros Hp Hpid. on_path test4_child. on_path testcow_child.
    split_tests; split; reflexivity. }
  assert (Hagreement :
    operations (trace_of test4_main o) = operations (trace_of testcow_main o)
    /\ (verdicts (trace_of test4_main o) = verdicts (trace_of testcow_main o)
        <-> ~ (malloc_ret o 0 <> 0 /\ fork_ret o 0 = 0
               /\ free_pages o 3 <= free_pages o 2))).
  { clear Hchild.
    destruct (four_paths o) as [Hp | [[Hp Hpid] | [[Hp Hpid] | [Hp Hpid]]]].
    - on_path test4_alloc_failure. on_path testcow_alloc_failure.
      split; [reflexivity | intuition].
    - on_path test4_fork_failure. on_path testcow_fork_failure.
      split; [reflexivity | intuition lia].
    - on_path test4_child. on_path testcow_child.
      split; [reflexivity | ].
      split_tests; cbn; split; intros Hagree; try reflexivity;
        try discriminate Hagree; try lia;
        exfalso; apply Hagree; repeat split; auto; lia.
    - on_path test4_parent. on_path testcow_parent.
      split; [reflexivity | ].
      split_tests; cbn; split; intros Hagree; try reflexivity; lia. }
  exact (conj (proj1 Hagreement) (conj (proj2 Hagreement) Hchild)).
Qed.

Lemma test4_testcow_agreement_witness :
  (operations (trace_of test4_main parent_new_page)
   = operations (trace_of testcow_main parent_new_page)
   /\ (verdicts (trace_of test4_main parent_new_page)
       = verdicts (trace_of testcow_main parent_new_page)
       <-> ~ (malloc_ret parent_new_page 0 <> 0
              /\ fork_ret parent_new_page 0 = 0
              /\ free_pages parent_new_page 3 <= free_pages parent_new_page 2)))
  /\ (malloc_ret child_no_new_page 0 <> 0
      /\ fork_ret child_no_new_page 0 = 0
      /\ verdicts (trace_of test4_main child_no_new_page) = [CowWorking]
      /\ verdicts (trace_of testcow_main child_no_new_page) = [WentWrong]).
Proof.
  split.
  - exact (conj (proj1 (test4_testcow_agreement parent_new_page))
             (proj1 (proj2 (test4_testcow_agreement parent_new_page)))).
  - split; [ vm_compute; discriminate | ].
    split; [ reflexivity | ].
    apply (proj2 (proj2 (test4_testcow_agreement child_no_new_page)));
      [ vm_compute; discriminate | reflexivity ].
Defined.

(** C3: when [malloc] returns a non-zero pointer and [fork] a non-negative
    value, each program measures (baseline), allocates 4096 bytes, measures
    again, forks, measures, writes one byte at index 0 of the buffer it
    allocated ('C' in the child, 'P' in the parent), measures again and
    prints a verdict that compares the last two counts, in this order. *)
Theorem procedure_order (o : oracle) :
  malloc_ret o 0 <> 0 -> 0 <= fork_ret o 0 ->
  let buffer := malloc_ret o 0 in
  let pid := fork_ret o 0 in
  let after_fork := free_pages o 2 in
  let after_write := free_pages o 3 in
  let written := if pid =? 0 then "C"%byte else "P"%byte in
  let below := if after_write <? after_fork then CowWorking else WentWrong in
  let equal := if after_write =? after_fork then CowWorking else WentWrong in
  steps (trace_of test4_main o)
  = [Measure (free_pages o 0); Allocate 4096 buffer;
     Measure (free_pages o 1); DoFork pid;
     Measure after_fork; WriteByte buffer 0 written;
     Measure after_write;
     PrintVerdict (if pid =? 0 then equal else below)]
  /\ steps (trace_of testcow_main o)
  = [Measure (free_pages o 0); Allocate 4096 buffer;
     Measure (free_pages o 1); DoFork pid;
     Measure after_fork; WriteByte buffer 0 written;
     Measure after_write;
     PrintVerdict below].
Proof.
  intros Hp Hpid. cbv zeta.
  destruct (Z.eq_dec (fork_ret o 0) 0) as [Hchild | Hparent].
  - on_path test4_child. on_path testcow_child.
    rewrite Hchild, Z.eqb_refl.
    split; split_tests; reflexivity.
  - on_path test4_parent. on_path testcow_parent.
    rewrite (proj2 (Z.eqb_neq (fork_ret o 0) 0) Hparent).
    split; split_tests; reflexivity.
Qed.

Lemma procedure_order_witness :
  (malloc_ret parent_new_page 0 <> 0 /\ 0 <= fork_ret parent_new_page 0
   /\ steps (trace_of test4_main parent_new_page)
      = [Measure 100; Allocate 4096 8192; Measure 99; DoFork 4;
         Measure 99; WriteByte 8192 0 "P"%byte; Measure 98;
         PrintVerdict CowWorking]
   /\ steps (trace_of testcow_main parent_new_page)
      = [Measure 100; Allocate 4096 8192; Measure 99; DoFork 4;
         Measure 99; WriteByte 8192 0 "P"%byte; Measure 98;
         PrintVerdict CowWorking])
  /\ (malloc_ret child_no_new_page 0 <> 0
      /\ 0 <= fork_ret child_no_new_page 0
      /\ steps (trace_of test4_main child_no_new_page)
         = [Measure 100; Allocate 4096 8192; Measure 99; DoFork 0;
            Measure 99; WriteByte 8192 0 "C"%byte; Measure 99;
            PrintVerdict CowWorking]
      /\ steps (trace_of testcow_main child_no_new_page)
         = [Measure 100; Allocate 4096 8192; Measure 99; DoFork 0;
            Measure 99; WriteByte 8192 0 "C"%byte; Measure 99;
            PrintVerdict WentWrong]).
Proof.
  split.
  - split; [ vm_compute; discriminate | ].
    split; [ vm_compute; discriminate | ].
    apply (procedure_order parent_new_page); vm_compute; discriminate.
  - split; [ vm_compute; discriminate | ].
    split; [ vm_compute; discriminate | ].
    apply (procedure_order child_no_new_page); vm_compute; discriminate.
Defined.

(** C4: when the count measured after the write is strictly less than the
    count measured after fork, the parent of both programs prints the
    COW-success verdict, and so does the child of [testcow.c]. *)
Theorem cow_contract_success (o : oracle) :
  malloc_ret o 0 <> 0 ->
  free_pages o 3 < free_pages o 2 ->
  (0 < fork_ret o 0 ->
   verdicts (trace_of test4_main o) = [CowWorking]
   /\ verdicts (trace_of testcow_main o) = [CowWorking])
  /\ (fork_ret o 0 = 0 ->
      verdicts (trace_of testcow_main o) = [CowWorking]).
Proof.
  intros Hp Hless. split; intros Hpid.
  - on_path test4_parent. on_path testcow_parent.
    split_tests; try lia. split; reflexivity.
  - on_path testcow_child. split_tests; try lia. reflexivity.
Qed.

Lemma cow_contract_success_witness :
  (malloc_ret parent_new_page 0 <> 0
   /\ free_pages parent_new_page 3 < free_pages parent_new_page 2
   /\ 0 < fork_ret parent_new_page 0
   /\ verdicts (trace_of test4_main parent_new_page) = [CowWorking]
   /\ verdicts (trace_of testcow_main parent_new_page) = [CowWorking])
  /\ (malloc_ret child_new_page 0 <> 0
      /\ free_pages child_new_page 3 < free_pages child_new_page 2
      /\ fork_ret child_new_page 0 = 0
      /\ verdicts (trace_of testcow_main child_new_page) = [CowWorking]).
Proof.
  split.
  - split; [ vm_compute; discriminate | ].
    split; [ reflexivity | ].
    split; [ reflexivity | ].
    apply (cow_contract_success parent_new_page);
      [ vm_compute; discriminate | reflexivity | reflexivity ].
  - split; [ vm_compute; discriminate | ].
    split; [ reflexivity | ].
    split; [ reflexivity | ].
    apply (cow_contract_success child_new_page);
      [ vm_compute; discriminate | reflexivity | reflexivity ].
Defined.

(** C5: when [malloc] returns 0 or [fork] returns a negative value, either
    program prints exactly one failure message and then calls [exit()]:
    the failing call is followed by the failure message and by [exit()] and
    by nothing else, so nothing is measured, forked, written or waited for
    after the failure, and the process ends without a status.  The run is
    given in full, in order, for each of the two failures. *)
Theorem failure_handling (o : oracle) (m : memory) :
  malloc_ret o 0 = 0 \/ fork_ret o 0 < 0 ->
  (fails_cleanly test4_main o m /\ fails_cleanly testcow_main o m)
  /\ (malloc_ret o 0 = 0 ->
      (calls_made test4_main o m = (1, 1, 0)%nat
       /\ calls_made testcow_main o m = (1, 1, 0)%nat)
      /\ trace_of test4_main o
         = [EvGetNumFreePages (free_pages o 0);
            EvPrintf 1 ("Initial free pages: %d" ++ LF) [free_pages o 0];
            EvMalloc 4096 (malloc_ret o 0);
            EvPrintf 1 ("Memory allocation failed" ++ LF) [];
            EvExit]
      /\ trace_of testcow_main o
         = [EvGetNumFreePages (free_pages o 0);
            EvPrintf 1 ("Initial free pages: %d" ++ LF) [free_pages o 0];
            EvMalloc 4096 (malloc_ret o 0);
            EvPrintf 1 ("Memory allocation failed" ++ LF) [];
            EvExit])
  /\ (malloc_ret o 0 <> 0 ->
      (calls_made test4_main o m = (2, 1, 1)%nat
       /\ calls_made testcow_main o m = (2, 1, 1)%nat)
      /\ trace_of test4_main o
         = [EvGetNumFreePages (free_pages o 0);
            EvPrintf 1 ("Initial free pages: %d" ++ LF) [free_pages o 0];
            EvMalloc 4096 (malloc_ret o 0);
            EvGetNumFreePages (free_pages o 1);
            EvPrintf 1 ("Free pages after allocation: %d" ++ LF)
              [free_pages o 1];
            EvFork (fork_ret o 0);
            EvPrintf 1 ("Fork failed" ++ LF) [];
            EvExit]
      /\ trace_of testcow_main o
         = [EvGetNumFreePages (free_pages o 0);
            EvPrintf 1 ("Initial free pages: %d" ++ LF) [free_pages o 0];
            EvMalloc 4096 (malloc_ret o 0);
            EvGetNumFreePages (free_pages o 1);
            EvPrintf 1 ("Free pages after allocation: %d" ++ LF)
              [free_pages o 1];
            EvFork (fork_ret o 0);
            EvPrintf 1 ("Fork failed" ++ LF) [];
            EvExit]).
Proof.
  intros Hfail. unfold fails_cleanly, calls_made.
  destruct (Z.eq_dec (malloc_ret o 0) 0) as [Hp | Hp].
  - on_path test4_alloc_failure. on_path testcow_alloc_failure.
    repeat split; try reflexivity; try contradiction.
    + eexists [_; _; _], _. repeat split.
    + eexists [_; _; _], _. repeat split.
  - assert (Hpid : fork_ret o 0 < 0) by tauto.
    on_path test4_fork_failure. on_path testcow_fork_failure.
    repeat split; try reflexivity; try contradiction.
    + eexists [_; _; _; _; _; _], _. repeat split.
    + eexists [_; _; _; _; _; _], _. repeat split.
Qed.

Lemma failure_handling_witness :
  ((malloc_ret no_memory 0 = 0 \/ fork_ret no_memory 0 < 0)
   /\ (fails_cleanly test4_main no_memory zeros
       /\ fails_cleanly testcow_main no_memory zeros)
   /\ (calls_made test4_main no_memory zeros = (1, 1, 0)%nat
       /\ calls_made testcow_main no_memory zeros = (1, 1, 0)%nat)
   /\ trace_of test4_main no_memory
      = [EvGetNumFreePages 100;
         EvPrintf 1 ("Initial free pages: %d" ++ LF) [100];
         EvMalloc 4096 0;
         EvPrintf 1 ("Memory allocation failed" ++ LF) [];
         EvExit]
   /\ trace_of testcow_main no_memory
      = [EvGetNumFreePages 100;
         EvPrintf 1 ("Initial free pages: %d" ++ LF) [100];
         EvMalloc 4096 0;
         EvPrintf 1 ("Memory allocation failed" ++ LF) [];
         EvExit])
  /\ ((malloc_ret no_process 0 = 0 \/ fork_ret no_process 0 < 0)
      /\ (fails_cleanly test4_main no_process zeros
          /\ fails_cleanly testcow_main no_process zeros)
      /\ (calls_made test4_main no_process zeros = (2, 1, 1)%nat
          /\ calls_made testcow_main no_process zeros = (2, 1, 1)%nat)
      /\ trace_of test4_main no_process
         = [EvGetNumFreePages 100;
            EvPrintf 1 ("Initial free pages: %d" ++ LF) [100];
            EvMalloc 4096 8192;
            EvGetNumFreePages 99;
            EvPrintf 1 ("Free pages after allocation: %d" ++ LF) [99];
            EvFork (-1);
            EvPrintf 1 ("Fork failed" ++ LF) [];
            EvExit]
      /\ trace_of testcow_main no_process
         = [EvGetNumFreePages 100;
            EvPrintf 1 ("Initial free pages: %d" ++ LF) [100];
            EvMalloc 4096 8192;
            EvGetNumFreePages 99;
            EvPrintf 1 ("Free pages after allocation: %d" ++ LF) [99];
            EvFork (-1);
            EvPrintf 1 ("Fork failed" ++ LF) [];
            EvExit]).
Proof.
  split.
  - split; [ left; reflexivity | ].
    split.
    + apply (failure_handling no_memory zeros). left; reflexivity.
    + apply (proj1 (proj2 (failure_handling no_memory zeros
                             (or_introl eq_refl)))).
      reflexivity.
  - split; [ right; reflexivity | ].
    split.
    + apply (failure_handling no_process zeros). right; reflexivity.
    + apply (proj2 (proj2 (failure_handling no_process zeros
                             (or_intror eq_refl)))).
      vm_compute; discriminate.
Defined.

(** C6: in every run of either program the process writes at most one byte,
    the one at index 0 of the buffer ('C' in the child, 'P' in the parent,
    nothing on a failure path), and every other byte of memory, so the
    other 4095 bytes of the buffer, is left as it was. *)
Theorem one_byte_written (o : oracle) (m : memory) :
  let p := malloc_ret o 0 in
  let pid := fork_ret o 0 in
  let written :=
    if (p =? 0) || (pid <? 0) then []
    else if pid =? 0 then [(p, 0, "C"%byte)]
    else [(p, 0, "P"%byte)] in
  (stores (trace_of test4_main o) = written
   /\ stores (trace_of testcow_main o) = written)
  /\ (forall i, 1 <= i <= 4095 ->
      mem (snd (exec test4_main o m)) (p + i) = m (p + i)
      /\ mem (snd (exec testcow_main o m)) (p + i) = m (p + i))
  /\ (forall a, a <> p ->
      mem (snd (exec test4_main o m)) a = m a
      /\ mem (snd (exec testcow_main o m)) a = m a).
Proof.
  intros p pid written.
  assert (Hframe : forall a, a <> p ->
            mem (snd (exec test4_main o m)) a = m a
            /\ mem (snd (exec testcow_main o m)) a = m a).
  { intros a Ha. subst p.
    destruct (four_paths o) as [Hp | [[Hp Hpid] | [[Hp Hpid] | [Hp Hpid]]]].
    - on_path test4_alloc_failure. on_path testcow_alloc_failure. auto.
    - on_path test4_fork_failure. on_path testcow_fork_failure. auto.
    - on_path test4_child. on_path testcow_child.
      unfold write. destruct (Z.eqb_spec a (malloc_ret o 0 + 0)); [lia | auto].
    - on_path test4_parent. on_path testcow_parent.
      unfold write. destruct (Z.eqb_spec a (malloc_ret o 0 + 0)); [lia | auto]. }
  split; [ | split; [ intros i Hi; apply Hframe; lia | exact Hframe ] ].
  subst written p pid.
  destruct (four_paths o) as [Hp | [[Hp Hpid] | [[Hp Hpid] | [Hp Hpid]]]].
  - on_path test4_alloc_failure. on_path testcow_alloc_failure.
    split_tests; try lia; split; reflexivity.
  - on_path test4_fork_failure. on_path testcow_fork_failure.
    split_tests; try lia; split; reflexivity.
  - on_path test4_child. on_path testcow_child.
    split_tests; try lia; split; reflexivity.
  - on_path test4_parent. on_path testcow_parent.
    split_tests; try lia; split; reflexivity.
Qed.

Lemma one_byte_written_witness :
  (stores (trace_of test4_main child_new_page) = [(8192, 0, "C"%byte)]
   /\ stores (trace_of testcow_main child_new_page) = [(8192, 0, "C"%byte)])
  /\ (1 <= 4095 <= 4095
      /\ mem (snd (exec test4_main child_new_page zeros)) (8192 + 4095)
         = zeros (8192 + 4095)
      /\ mem (snd (exec testcow_main child_new_page zeros)) (8192 + 4095)
         = zeros (8192 + 4095)).
Proof.
  split.
  - exact (proj1 (one_byte_written child_new_page zeros)).
  - split; [ lia | ].
    apply (proj1 (proj2 (one_byte_written child_new_page zeros))). lia.
Defined.

(** C7: when fork succeeds, the parent of either program calls [wait()]
    exactly once, right after printing its verdict and right before
    [exit()]; the child never calls [wait()].  Apart from [fork], [wait] and
    [exit] the programs perform no operation that involves the other
    process. *)
Theorem wait_discipline (o : oracle) :
  malloc_ret o 0 <> 0 -> 0 <= fork_ret o 0 ->
  (0 < fork_ret o 0 ->
   (waits_once_after_verdict (trace_of test4_main o)
    /\ waits_once_after_verdict (trace_of testcow_main o))
   /\ process_operations (trace_of test4_main o)
      = [EvFork (fork_ret o 0); EvWait; EvExit]
   /\ process_operations (trace_of testcow_main o)
      = [EvFork (fork_ret o 0); EvWait; EvExit])
  /\ (fork_ret o 0 = 0 ->
      (count is_wait (trace_of test4_main o) = 0%nat
       /\ count is_wait (trace_of testcow_main o) = 0%nat)
      /\ process_operations (trace_of test4_main o)
         = [EvFork (fork_ret o 0); EvExit]
      /\ process_operations (trace_of testcow_main o)
         = [EvFork (fork_ret o 0); EvExit]).
Proof.
  intros Hp Hpid. unfold waits_once_after_verdict.
  split; intros Hbranch.
  - on_path test4_parent. on_path testcow_parent.
    repeat split.
    + eexists [_; _; _; _; _; _; _; _; _; _; _; _], _,
        (if free_pages o 3 <? free_pages o 2 then CowWorking else WentWrong).
      split; [ reflexivity | split_tests; reflexivity ].
    + eexists [_; _; _; _; _; _; _; _; _; _; _; _], _,
        (if free_pages o 3 <? free_pages o 2 then CowWorking else WentWrong).
      split; [ reflexivity | split_tests; reflexivity ].
  - on_path test4_child. on_path testcow_child.
    repeat split.
Qed.

Lemma wait_discipline_witness :
  (malloc_ret parent_new_page 0 <> 0 /\ 0 <= fork_ret parent_new_page 0
   /\ 0 < fork_ret parent_new_page 0
   /\ (waits_once_after_verdict (trace_of test4_main parent_new_page)
       /\ waits_once_after_verdict (trace_of testcow_main parent_new_page)))
  /\ (malloc_ret child_new_page 0 <> 0 /\ 0 <= fork_ret child_new_page 0
      /\ fork_ret child_new_page 0 = 0
      /\ (count is_wait (trace_of test4_main child_new_page) = 0%nat
          /\ count is_wait (trace_of testcow_main child_new_page) = 0%nat)).
Proof.
  split.
  - split; [ vm_compute; discriminate | ].
    split; [ vm_compute; discriminate | ].
    split; [ reflexivity | ].
    apply (wait_discipline parent_new_page);
      [ vm_compute; discriminate | vm_compute; discriminate | reflexivity ].
  - split; [ vm_compute; discriminate | ].
    split; [ vm_compute; discriminate | ].
    split; [ reflexivity | ].
    apply (wait_discipline child_new_page);
      [ vm_compute; discriminate | vm_compute; discriminate | reflexivity ].
Defined.

(** C8: every run of either program ends by calling [exit()], which takes
    no status; [main] never returns, on the failure paths and on the paths
    of parent and child alike. *)
Theorem always_exits (o : oracle) (m : memory) :
  ends_by_exit test4_main o m /\ ends_by_exit testcow_main o m.
Proof.
  unfold ends_by_exit.
  destruct (four_paths o) as [Hp | [[Hp Hpid] | [[Hp Hpid] | [Hp Hpid]]]].
  - on_path test4_alloc_failure. on_path testcow_alloc_failure.
    repeat split.
  - on_path test4_fork_failure. on_path testcow_fork_failure.
    repeat split.
  - on_path test4_child. on_path testcow_child.
    repeat split.
  - on_path test4_parent. on_path testcow_parent.
    repeat split.
Qed.

(** C9: two runs of either program that differ only in the values of the
    baseline and post-allocation measurements print the same verdict
    message; these two values are printed ([malloc] permitting, for the
    second) and never compared. *)
Theorem verdict_ignores_first_measurements (o1 o2 : oracle) :
  differ_only_before_fork o1 o2 ->
  (verdict_prints (trace_of test4_main o1)
   = verdict_prints (trace_of test4_main o2)
   /\ verdict_prints (trace_of testcow_main o1)
      = verdict_prints (trace_of testcow_main o2))
  /\ (In (EvPrintf 1 ("Initial free pages: %d" ++ LF) [free_pages o1 0])
         (trace_of test4_main o1)
      /\ In (EvPrintf 1 ("Initial free pages: %d" ++ LF) [free_pages o1 0])
            (trace_of testcow_main o1))
  /\ (malloc_ret o1 0 <> 0 ->
      In (EvPrintf 1 ("Free pages after allocation: %d" ++ LF)
            [free_pages o1 1])
         (trace_of test4_main o1)
      /\ In (EvPrintf 1 ("Free pages after allocation: %d" ++ LF)
               [free_pages o1 1])
            (trace_of testcow_main o1)).
Proof.
  intros (Hnfp & Hmalloc & Hfork).
  pose proof (Hnfp 2%nat (le_n 2)) as H2.
  pose proof (Hnfp 3%nat (le_S 2 2 (le_n 2))) as H3.
  pose proof (Hmalloc 0%nat) as Hm0.
  pose proof (Hfork 0%nat) as Hf0.
  destruct (four_paths o1) as [Hp | [[Hp Hpid] | [[Hp Hpid] | [Hp Hpid]]]].
  - assert (Hp' : malloc_ret o2 0 = 0) by congruence.
    unfold trace_of.
    rewrite !(test4_alloc_failure o1), !(testcow_alloc_failure o1),
      !(test4_alloc_failure o2), !(testcow_alloc_failure o2) by assumption.
    cbn [snd trace]. repeat split; cbn; auto; contradiction.
  - assert (Hp' : malloc_ret o2 0 <> 0) by congruence.
    assert (Hpid' : fork_ret o2 0 < 0) by congruence.
    unfold trace_of.
    rewrite !(test4_fork_failure o1), !(testcow_fork_failure o1),
      !(test4_fork_failure o2), !(testcow_fork_failure o2) by assumption.
    cbn [snd trace]. repeat split; cbn; auto 10.
  - assert (Hp' : malloc_ret o2 0 <> 0) by congruence.
    assert (Hpid' : fork_ret o2 0 = 0) by congruence.
    unfold trace_of.
    rewrite !(test4_child o1), !(testcow_child o1),
      !(test4_child o2), !(testcow_child o2) by assumption.
    cbn [snd trace]. rewrite <- H2, <- H3.
    repeat split; cbn; auto 10.
  - assert (Hp' : malloc_ret o2 0 <> 0) by congruence.
    assert (Hpid' : 0 < fork_ret o2 0) by congruence.
    unfold trace_of.
    rewrite !(test4_parent o1), !(testcow_parent o1),
      !(test4_parent o2), !(testcow_parent o2) by assumption.
    cbn [snd trace]. rewrite <- H2, <- H3.
    repeat split; cbn; auto 10.
Qed.

Lemma other_start_differs_only_before_fork :
  differ_only_before_fork child_new_page child_new_page_other_start.
Proof.
  repeat split.
  intros [ | [ | k ]] Hk; [ lia | lia | reflexivity ].
Defined.

Lemma verdict_ignores_first_measurements_witness :
  differ_only_before_fork child_new_page child_new_page_other_start
  /\ verdict_prints (trace_of test4_main child_new_page)
     = verdict_prints (trace_of test4_main child_new_page_other_start)
  /\ verdict_prints (trace_of testcow_main child_new_page)
     = verdict_prints (trace_of testcow_main child_new_page_other_start).
Proof.
  split; [ exact other_start_differs_only_before_fork | ].
  exact (proj1 (verdict_ignores_first_measurements
                  child_new_page child_new_page_other_start
                  other_start_differs_only_before_fork)).
Defined.

(** C10: when [malloc] and [fork] both succeed, the process prints exactly
    one verdict: the COW-success one or the something-went-wrong one, never
    both and never neither. *)
Theorem exactly_one_verdict (o : oracle) :
  malloc_ret o 0 <> 0 -> 0 <= fork_ret o 0 ->
  (verdicts (trace_of test4_main o) = [CowWorking]
   \/ verdicts (trace_of test4_main o) = [WentWrong])
  /\ (verdicts (trace_of testcow_main o) = [CowWorking]
      \/ verdicts (trace_of testcow_main o) = [WentWrong]).
Proof.
  intros Hp Hpid.
  destruct (Z.eq_dec (fork_ret o 0) 0) as [Hchild | Hparent].
  - on_path test4_child. on_path testcow_child.
    split; split_tests; cbn; auto.
  - on_path test4_parent. on_path testcow_parent.
    split; split_tests; cbn; auto.
Qed.

Lemma exactly_one_verdict_witness :
  malloc_ret child_no_new_page 0 <> 0 /\ 0 <= fork_ret child_no_new_page 0
  /\ (verdicts (trace_of test4_main child_no_new_page) = [CowWorking]
      \/ verdicts (trace_of test4_main child_no_new_page) = [WentWrong])
  /\ (verdicts (trace_of testcow_main child_no_new_page) = [CowWorking]
      \/ verdicts (trace_of testcow_main child_no_new_page) = [WentWrong]).
Proof.
  split; [ vm_compute; discriminate | ].
  split; [ vm_compute; discriminate | ].
  apply (exactly_one_verdict child_no_new_page); vm_compute; discriminate.
Defined.

(** ** Further properties of the two programs *)

(** The path of a process and the answers that put it there. *)
Lemma path_cases (o : oracle) :
  (path_of o = AllocFailure /\ malloc_ret o 0 = 0)
  \/ (path_of o = ForkFailure /\ malloc_ret o 0 <> 0 /\ fork_ret o 0 < 0)
  \/ (path_of o = Child /\ malloc_ret o 0 <> 0 /\ fork_ret o 0 = 0)
  \/ (path_of o = Parent /\ malloc_ret o 0 <> 0 /\ 0 < fork_ret o 0).
Proof.
  unfold path_of.
  destruct (Z.eqb_spec (malloc_ret o 0) 0); [ auto | ].
  destruct (Z.ltb_spec (fork_ret o 0) 0); [ auto | ].
  destruct (Z.eqb_spec (fork_ret o 0) 0); [ auto 6 | ].
  right; right; right. repeat split; [ assumption | lia ].
Qed.

(** Case analysis on the path of [o], with both programs run on it. *)
Ltac by_paths o :=
  let Hpath := fresh "Hpath" in
  let Hp := fresh "Hp" in
  let Hpid := fresh "Hpid" in
  unfold trace_of;
  destruct (path_cases o)
    as [(Hpath & Hp)
       | [(Hpath & Hp & Hpid)
         | [(Hpath & Hp & Hpid) | (Hpath & Hp & Hpid)]]];
  rewrite ?Hpath;
  [ rewrite ?(test4_alloc_failure o), ?(testcow_alloc_failure o) by assumption
  | rewrite ?(test4_fork_failure o), ?(testcow_fork_failure o) by assumption
  | rewrite ?(test4_child o), ?(testcow_child o) by assumption
  | rewrite ?(test4_parent o), ?(testcow_parent o) by assumption ];
  cbn [fst snd trace mem measured allocated forked].

(** X1: a run prints the allocation-failure message exactly when [malloc]
    returned 0, the fork-failure message exactly when [malloc] succeeded and
    [fork] returned a negative value, and no failure message otherwise; a
    failed allocation is reported whatever [fork] would have returned. *)
Theorem failure_message_table (o : oracle) :
  let expected :=
    match path_of o with
    | AllocFailure => [EvPrintf 1 ("Memory allocation failed" ++ LF) []]
    | ForkFailure => [EvPrintf 1 ("Fork failed" ++ LF) []]
    | Child | Parent => []
    end in
  failure_prints (trace_of test4_main o) = expected
  /\ failure_prints (trace_of testcow_main o) = expected.
Proof.
  intros expected. subst expected.
  by_paths o; split_tests; split; reflexivity.
Qed.

(** X2: a run consults only the first four measurements, the first
    allocation and the first fork: two kernels that agree on these give the
    same outcome, the same trace and the same memory.  Nothing is measured a
    fifth time and neither [malloc] nor [fork] is tried again. *)
Theorem answers_consulted (o1 o2 : oracle) (m : memory) :
  same_first_answers o1 o2 ->
  exec test4_main o1 m = exec test4_main o2 m
  /\ exec testcow_main o1 m = exec testcow_main o2 m.
Proof.
  intros (Hnfp & Hmalloc & Hfork).
  pose proof (Hnfp 0%nat ltac:(lia)) as H0.
  pose proof (Hnfp 1%nat ltac:(lia)) as H1.
  pose proof (Hnfp 2%nat ltac:(lia)) as H2.
  pose proof (Hnfp 3%nat ltac:(lia)) as H3.
  destruct (four_paths o1) as [Hp | [[Hp Hpid] | [[Hp Hpid] | [Hp Hpid]]]].
  - rewrite (test4_alloc_failure o1), (test4_alloc_failure o2),
      (testcow_alloc_failure o1), (testcow_alloc_failure o2) by lia.
    rewrite H0, Hmalloc. split; reflexivity.
  - rewrite (test4_fork_failure o1), (test4_fork_failure o2),
      (testcow_fork_failure o1), (testcow_fork_failure o2) by lia.
    rewrite H0, H1, Hmalloc, Hfork. split; reflexivity.
  - rewrite (test4_child o1), (test4_child o2),
      (testcow_child o1), (testcow_child o2) by lia.
    rewrite H0, H1, H2, H3, Hmalloc, Hfork. split; reflexivity.
  - rewrite (test4_parent o1), (test4_parent o2),
      (testcow_parent o1), (testcow_parent o2) by lia.
    rewrite H0, H1, H2, H3, Hmalloc, Hfork. split; reflexivity.
Qed.

Lemma longer_same_first_answers :
  same_first_answers child_new_page child_new_page_longer.
Proof.
  repeat split.
  intros [ | [ | [ | [ | k ]]]] Hk; [ reflexivity .. | lia ].
Defined.

Lemma answers_consulted_witness :
  same_first_answers child_new_page child_new_page_longer
  /\ exec test4_main child_new_page zeros
     = exec test4_main child_new_page_longer zeros
  /\ exec testcow_main child_new_page zeros
     = exec testcow_main child_new_page_longer zeros.
Proof.
  split; [ exact longer_same_first_answers | ].
  exact (answers_consulted child_new_page child_new_page_longer zeros
           longer_same_first_answers).
Defined.

(** X3: every run allocates once, 4096 bytes, and by its path makes one
    measurement and no fork (allocation failure), two measurements and one
    fork (fork failure), or four measurements and one fork (child and
    parent). *)
Theorem calls_per_path (o : oracle) (m : memory) :
  let expected :=
    match path_of o with
    | AllocFailure => (1, 1, 0)%nat
    | ForkFailure => (2, 1, 1)%nat
    | Child | Parent => (4, 1, 1)%nat
    end in
  (calls_made test4_main o m = expected
   /\ calls_made testcow_main o m = expected)
  /\ allocations (trace_of test4_main o) = [EvMalloc 4096 (malloc_ret o 0)]
  /\ allocations (trace_of testcow_main o) = [EvMalloc 4096 (malloc_ret o 0)].
Proof.
  intros expected. subst expected. unfold calls_made.
  by_paths o; repeat split.
Qed.

(** X4: every call of [printf] in every run writes to descriptor 1 and
    passes exactly one integer for each conversion of its format, which is
    always [%d]: no format reads an argument that was not passed. *)
Theorem prints_well_formed (o : oracle) :
  forallb well_formed_print (trace_of test4_main o) = true
  /\ forallb well_formed_print (trace_of testcow_main o) = true.
Proof.
  by_paths o; split_tests; split; reflexivity.
Qed.

(** X5: every measurement is reported: the integers handed to [printf], in
    order, are the values [getNumFreePages] returned, in order, and nothing
    else (neither the pid nor the pointer is printed). *)
Theorem every_measurement_reported (o : oracle) :
  printed_values (trace_of test4_main o)
  = measured_values (trace_of test4_main o)
  /\ printed_values (trace_of testcow_main o)
     = measured_values (trace_of testcow_main o).
Proof.
  by_paths o; split; reflexivity.
Qed.

(** X6: only the child of [test4.c] sleeps, once and for 10 ticks, and it
    does so between taking its post-fork measurement and printing it: the
    count it reports is the one from before the delay.  [testcow.c] never
    sleeps. *)
Theorem only_test4_child_sleeps (o : oracle) :
  sleeps (trace_of test4_main o)
  = match path_of o with
    | Child => [EvSleep 10]
    | _ => []
    end
  /\ sleeps (trace_of testcow_main o) = []
  /\ (path_of o = Child ->
      exists before after : list event,
        trace_of test4_main o =
          (before
           ++ [EvGetNumFreePages (free_pages o 2);
               EvSleep 10;
               EvPrintf 1 ("Free pages after fork (child): %d" ++ LF)
                 [free_pages o 2]]
           ++ after)%list).
Proof.
  by_paths o; (split; [ reflexivity | split; [ reflexivity | ] ]);
    intros Hchild; try discriminate Hchild.
  eexists [_; _; _; _; _; _], _. reflexivity.
Qed.

Lemma only_test4_child_sleeps_witness :
  path_of child_new_page = Child
  /\ sleeps (trace_of test4_main child_new_page) = [EvSleep 10]
  /\ exists before after : list event,
       trace_of test4_main child_new_page =
         (before
          ++ [EvGetNumFreePages (free_pages child_new_page 2);
              EvSleep 10;
              EvPrintf 1 ("Free pages after fork (child): %d" ++ LF)
                [free_pages child_new_page 2]]
          ++ after)%list.
Proof.
  split; [ reflexivity | ].
  split.
  - exact (proj1 (only_test4_child_sleeps child_new_page)).
  - apply (proj2 (proj2 (only_test4_child_sleeps child_new_page))).
    reflexivity.
Defined.

(** X7: the verdicts a run prints, on every path: none on a failure path;
    in the parent of both programs and in the child of [testcow.c] success
    exactly when the count after the write is below the count after fork;
    in the child of [test4.c] success exactly when the two are equal. *)
Theorem verdict_table (o : oracle) :
  let below :=
    if free_pages o 3 <? free_pages o 2 then CowWorking else WentWrong in
  let equal :=
    if free_pages o 3 =? free_pages o 2 then CowWorking else WentWrong in
  verdicts (trace_of test4_main o)
  = match path_of o with
    | AllocFailure | ForkFailure => []
    | Child => [equal]
    | Parent => [below]
    end
  /\ verdicts (trace_of testcow_main o)
     = match path_of o with
       | AllocFailure | ForkFailure => []
       | Child | Parent => [below]
       end.
Proof.
  intros below equal. subst below equal.
  by_paths o; split_tests; split; reflexivity.
Qed.

(** X8: no kernel satisfies both child checks: whatever the measurements,
    the children of [test4.c] and [testcow.c] never both print the
    COW-success verdict. *)
Theorem child_checks_exclusive (o : oracle) :
  path_of o = Child ->
  ~ (In CowWorking (verdicts (trace_of test4_main o))
     /\ In CowWorking (verdicts (trace_of testcow_main o))).
Proof.
  intros Hchild.
  by_paths o; try congruence.
  split_tests; try lia; cbn; intros [H4 Hcow];
    repeat match goal with
      | H : _ \/ _ |- _ => destruct H
      | H : WentWrong = CowWorking |- _ => discriminate H
      | H : False |- _ => contradiction
      end.
Qed.

Lemma child_checks_exclusive_witness :
  path_of child_no_new_page = Child
  /\ ~ (In CowWorking (verdicts (trace_of test4_main child_no_new_page))
        /\ In CowWorking (verdicts (trace_of testcow_main child_no_new_page))).
Proof.
  split; [ reflexivity | ].
  apply (child_checks_exclusive child_no_new_page). reflexivity.
Defined.

(** X9: when the run ends, the first byte of the buffer holds 'C' in the
    child and 'P' in the parent, in both programs; on a failure path it
    holds what it held before. *)
Theorem first_byte_after_run (o : oracle) (m : memory) :
  let expected :=
    match path_of o with
    | Child => "C"%byte
    | Parent => "P"%byte
    | AllocFailure | ForkFailure => m (malloc_ret o 0)
    end in
  mem (snd (exec test4_main o m)) (malloc_ret o 0) = expected
  /\ mem (snd (exec testcow_main o m)) (malloc_ret o 0) = expected.
Proof.
  intros expected. subst expected.
  by_paths o; unfold write; rewrite ?Z.add_0_r, ?Z.eqb_refl;
    split; reflexivity.
Qed.

(** X10: what a process prints depends only on its path and on the four
    measurements: two runs on the same path with the same measurements
    print the same lines, whatever the pointer [malloc] returned and
    whatever positive pid [fork] returned. *)
Theorem prints_depend_on_path_and_measurements (o1 o2 : oracle) :
  path_of o1 = path_of o2 ->
  (forall k, (k < 4)%nat -> free_pages o1 k = free_pages o2 k) ->
  prints (trace_of test4_main o1) = prints (trace_of test4_main o2)
  /\ prints (trace_of testcow_main o1) = prints (trace_of testcow_main o2).
Proof.
  intros Hsame Hnfp.
  pose proof (Hnfp 0%nat ltac:(lia)) as H0.
  pose proof (Hnfp 1%nat ltac:(lia)) as H1.
  pose proof (Hnfp 2%nat ltac:(lia)) as H2.
  pose proof (Hnfp 3%nat ltac:(lia)) as H3.
  unfold trace_of.
  destruct (path_cases o1)
    as [(Hq1 & Hp1)
       | [(Hq1 & Hp1 & Hpid1)
         | [(Hq1 & Hp1 & Hpid1) | (Hq1 & Hp1 & Hpid1)]]];
  destruct (path_cases o2)
    as [(Hq2 & Hp2)
       | [(Hq2 & Hp2 & Hpid2)
         | [(Hq2 & Hp2 & Hpid2) | (Hq2 & Hp2 & Hpid2)]]];
  try congruence.
  - rewrite (test4_alloc_failure o1), (test4_alloc_failure o2),
      (testcow_alloc_failure o1), (testcow_alloc_failure o2) by assumption.
    cbn [snd trace]. rewrite H0. split; reflexivity.
  - rewrite (test4_fork_failure o1), (test4_fork_failure o2),
      (testcow_fork_failure o1), (testcow_fork_failure o2) by assumption.
    cbn [snd trace]. rewrite H0, H1. split; reflexivity.
  - rewrite (test4_child o1), (test4_child o2),
      (testcow_child o1), (testcow_child o2) by assumption.
    cbn [snd trace]. rewrite H0, H1, H2, H3. split; reflexivity.
  - rewrite (test4_parent o1), (test4_parent o2),
      (testcow_parent o1), (testcow_parent o2) by assumption.
    cbn [snd trace]. rewrite H0, H1, H2, H3. split; reflexivity.
Qed.

Lemma prints_depend_on_path_and_measurements_witness :
  path_of parent_new_page = path_of parent_other_child
  /\ (forall k, (k < 4)%nat ->
      free_pages parent_new_page k = free_pages parent_other_child k)
  /\ prints (trace_of test4_main parent_new_page)
     = prints (trace_of test4_main parent_other_child)
  /\ prints (trace_of testcow_main parent_new_page)
     = prints (trace_of testcow_main parent_other_child).
Proof.
  split; [ reflexivity | ].
  split; [ intros k Hk; reflexivity | ].
  apply (prints_depend_on_path_and_measurements
           parent_new_page parent_other_child);
    [ reflexivity | intros k Hk; reflexivity ].
Defined.
